(** * Nx::Blender add-on stub: metadata dictionary and lifecycle hooks

    Shallow embedding of [scripts/addons_core/nx/__init__.py]:

    - the module-level dictionary [bl_info] (a Python dict with string
      keys whose values are strings and integer tuples), and
    - the two lifecycle callbacks [register] and [unregister], each of
      which consists of one call to the builtin [print].

    Python values are an inductive type, the dict is a [gmap] keyed by
    strings, and the callbacks are computations in a small state and
    exception monad over a [world] holding what [sys.stdout] is bound
    to (nothing, [None], or a text stream that is open, closed or
    failing), the module global [bl_info] and an opaque host frame. *)

From Stdlib Require Import ZArith String Ascii List.
From stdpp Require Import gmap strings list.

Local Open Scope string_scope.
Local Open Scope Z_scope.

(** ** Python values *)

(** The values that occur in the module: [None] (the result of both
    callbacks and of [print]), integers, strings and tuples. *)
#[warnings="-register-all"] Inductive pyval : Type :=
| PyNone
| PyInt (z : Z)
| PyStr (s : string)
| PyTuple (items : list pyval).

(** A raised exception: its class name and its message. *)
Record pyexn : Type := PyExn { exn_class : string; exn_msg : string }.

(** How a call ends: it returns a value or an exception propagates. *)
Inductive outcome (A : Type) : Type :=
| Returned (a : A)
| Raised (e : pyexn).
Arguments Returned {A} a.
Arguments Raised {A} e.

(** A dict display [{k1: v1, ..., kn: vn}]: the pairs are evaluated and
    stored left to right, a later pair overwriting an earlier one with
    the same key. *)
Definition py_dict (items : list (string * pyval)) : gmap string pyval :=
  foldl (fun d kv => <[kv.1 := kv.2]> d) ∅ items.

(** ** The descriptor *)

(** [bl_info = { "name": "Nx::Blender", ... , "category": "Global", }] *)
Definition bl_info_items : list (string * pyval) :=
  [ ("name",        PyStr "Nx::Blender");
    ("author",      PyStr "Hardronix");
    ("version",     PyTuple [PyInt 0; PyInt 0; PyInt 1]);
    ("blender",     PyTuple [PyInt 4; PyInt 2; PyInt 0]);
    ("location",    PyStr "Global");
    ("description", PyStr "NX features support");
    ("warning",     PyStr "");
    ("doc_url",     PyStr "");
    ("support",     PyStr "OFFICIAL");
    ("category",    PyStr "Global") ].

Definition bl_info : gmap string pyval := py_dict bl_info_items.

(** A well-formed version: a tuple of exactly three integers, none of
    them negative. *)
Definition is_nonneg_int (v : pyval) : bool :=
  match v with
  | PyInt z => 0 <=? z
  | _ => false
  end.

Definition is_version_triple (v : pyval) : bool :=
  match v with
  | PyTuple [a; b; c] => is_nonneg_int a && is_nonneg_int b && is_nonneg_int c
  | _ => false
  end.

(** ** Text streams *)

(** The line terminator written by [print] (its default [end]). *)
Definition newline : string := String "010"%char EmptyString.

(** The text of a stream cut into lines at each line feed; a final
    piece without a terminator counts as a line, an empty stream has no
    line. *)
Fixpoint lines (s : string) : list string :=
  match s with
  | EmptyString => []
  | String c rest =>
      if Ascii.eqb c "010"%char then EmptyString :: lines rest
      else match lines rest with
           | [] => [String c EmptyString]
           | l :: ls => String c l :: ls
           end
  end.

(** [drop_chars n s]: [s] without its first [n] characters. *)
Fixpoint drop_chars (n : nat) (s : string) : string :=
  match n, s with
  | O, _ => s
  | S _, EmptyString => EmptyString
  | S n', String _ rest => drop_chars n' rest
  end.

(** [has_prefix p s]: [s] starts with [p]. *)
Fixpoint has_prefix (p s : string) : bool :=
  match p, s with
  | EmptyString, _ => true
  | String a p', String b s' => Ascii.eqb a b && has_prefix p' s'
  | String _ _, EmptyString => false
  end.

(** [contains needle s]: [needle] occurs in [s] (Python's [needle in s]). *)
Fixpoint contains (needle s : string) : bool :=
  has_prefix needle s ||
  match s with
  | EmptyString => false
  | String _ rest => contains needle rest
  end.

(** A text stream object such as the one [sys.stdout] is usually bound
    to: the text it has received, whether it has been closed, and the
    error with which its device rejects a write, if it does (a broken
    pipe, a full disk). *)
Record text_stream : Type := TextStream {
  written : string;
  closed : bool;
  fault : option pyexn
}.

(** What the attribute [sys.stdout] is bound to when [print] looks it
    up: the attribute can be missing, it can be [None] (as in a process
    started without a console), or it is a stream. *)
Inductive stdout_binding : Type :=
| StdoutMissing
| StdoutNone
| StdoutStream (f : text_stream).

(** The stream with [text] added at its end. *)
Definition stream_append (text : string) (f : text_stream) : text_stream :=
  {| written := written f +:+ text; closed := closed f; fault := fault f |}.

(** The method [f.write(text)]: a closed stream raises [ValueError], a
    failing device raises its error, and otherwise the text is added. *)
Definition stream_write (text : string) (f : text_stream) : pyexn + text_stream :=
  if closed f then inl (PyExn "ValueError" "I/O operation on closed file.")
  else match fault f with
       | Some e => inl e
       | None => inr (stream_append text f)
       end.

(** An open stream holding [text] whose device accepts writes, a closed
    stream, and a stream whose device rejects writes with [e]. *)
Definition open_stream (text : string) : stdout_binding :=
  StdoutStream {| written := text; closed := false; fault := None |}.

Definition closed_stream (text : string) : stdout_binding :=
  StdoutStream {| written := text; closed := true; fault := None |}.

Definition failing_stream (text : string) (e : pyexn) : stdout_binding :=
  StdoutStream {| written := text; closed := false; fault := Some e |}.

(** [binding_writable b]: [sys.stdout] is a stream, it is open and its
    device accepts writes. *)
Definition binding_writable (b : stdout_binding) : bool :=
  match b with
  | StdoutStream f => negb (closed f) && match fault f with None => true | Some _ => false end
  | _ => false
  end.

(** The text received so far by the stream [sys.stdout] is bound to, if
    it is bound to one. *)
Definition binding_text (b : stdout_binding) : string :=
  match b with
  | StdoutStream f => written f
  | _ => EmptyString
  end.

(** The binding with [text] added to its stream, if it has one. *)
Definition binding_append (text : string) (b : stdout_binding) : stdout_binding :=
  match b with
  | StdoutStream f => StdoutStream (stream_append text f)
  | _ => b
  end.


(** ** The world and the monad of calls *)

Section Lifecycle.

(** Everything of the process and of the host application that the
    module does not name: files, sockets, the host's own state. *)
Context {Host : Type}.

Record world : Type := World {
  sys_stdout : stdout_binding;        (* what sys.stdout is bound to *)
  descriptor : gmap string pyval;     (* the module global bl_info *)
  host : Host                         (* the rest of the process *)
}.

(** A Python call: it reads and updates the world and either returns
    or raises. *)
Definition M (A : Type) : Type := world -> outcome A * world.

Definition ret {A} (a : A) : M A := fun w => (Returned a, w).

Definition bind {A B} (m : M A) (k : A -> M B) : M B :=
  fun w =>
    match m w with
    | (Returned a, w') => k a w'
    | (Raised e, w') => (Raised e, w')
    end.

Definition raise {A} (e : pyexn) : M A := fun w => (Raised e, w).

End Lifecycle.

Arguments world : clear implicits.
Arguments M : clear implicits.

Declare Scope py_scope.
Delimit Scope py_scope with py.
Notation "x <- m ;; k" := (bind m (fun x => k))
  (at level 100, m at next level, right associativity) : py_scope.
Notation "m ;;; k" := (bind m (fun _ => k))
  (at level 100, right associativity) : py_scope.

(** The two entry points the host can call. *)
Inductive call : Type := Register | Unregister.

(** The marker text of an entry point: initialization for [register],
    teardown for [unregister]. *)
Definition marker (c : call) : string :=
  match c with
  | Register => "NX init!"
  | Unregister => "NX uninit!"
  end.

(** The text expected on the stream after a sequence of calls: one
    terminated marker per call, in call order. *)
Fixpoint transcript (cs : list call) : string :=
  match cs with
  | [] => EmptyString
  | c :: rest => marker c +:+ newline +:+ transcript rest
  end.

Section Callbacks.

Context {Host : Type}.
Local Open Scope py_scope.

(** [writable w]: in [w], [sys.stdout] is an open stream that accepts
    writes. *)
Definition writable (w : world Host) : bool := binding_writable (sys_stdout w).

(** The text on the stream of [sys.stdout] in [w]. *)
Definition stdout_text (w : world Host) : string := binding_text (sys_stdout w).

(** The world with [text] added to the stream of [sys.stdout] and
    nothing else changed. *)
Definition write_stdout (text : string) (w : world Host) : world Host :=
  {| sys_stdout := binding_append text (sys_stdout w);
     descriptor := descriptor w;
     host := host w |}.

(** The call [file.write(text)] on the object [sys.stdout] is bound to. *)
Definition file_write (text : string) : M Host pyval :=
  fun w =>
    match sys_stdout w with
    | StdoutStream f =>
        match stream_write text f with
        | inl e => (Raised e, w)
        | inr f' =>
            (Returned PyNone,
             {| sys_stdout := StdoutStream f';
                descriptor := descriptor w;
                host := host w |})
        end
    | StdoutNone =>
        (Raised (PyExn "AttributeError"
                       "'NoneType' object has no attribute 'write'"), w)
    | StdoutMissing =>
        (Raised (PyExn "RuntimeError" "lost sys.stdout"), w)
    end.

(** The builtin [print(s)] with one string argument and the default
    [sep], [end], [file]. It looks up [sys.stdout]: a missing attribute
    raises [RuntimeError], [None] makes the call return at once without
    writing, and otherwise it writes [s] and then the line feed to the
    stream, each write raising what the stream raises. *)
Definition print (s : string) : M Host pyval :=
  fun w =>
    match sys_stdout w with
    | StdoutMissing => raise (PyExn "RuntimeError" "lost sys.stdout") w
    | StdoutNone => ret PyNone w
    | StdoutStream _ => (file_write s ;;; file_write newline ;;; ret PyNone) w
    end.

(** [def register() -> None: print("NX init!")] *)
Definition register : M Host pyval :=
  print "NX init!" ;;; ret PyNone.

(** [def unregister() -> None: print("NX uninit!")] *)
Definition unregister : M Host pyval :=
  print "NX uninit!" ;;; ret PyNone.

(** Executing the module body binds the global [bl_info] to the dict
    display; [out] and [h] are the binding of [sys.stdout] and the host
    as they are at that moment. The name [bpy] bound by [import bpy] is
    not used by the module afterwards and belongs to the host frame. *)
Definition module_load (out : stdout_binding) (h : Host) : world Host :=
  {| sys_stdout := out; descriptor := bl_info; host := h |}.

(** *** The host calling the callbacks *)

Definition invoke (c : call) : M Host pyval :=
  match c with
  | Register => register
  | Unregister => unregister
  end.

(** The host invoking the callbacks one after the other; an exception
    raised by one of them ends the sequence. *)
Fixpoint host_run (cs : list call) : M Host pyval :=
  match cs with
  | [] => ret PyNone
  | c :: rest => invoke c ;;; host_run rest
  end.

(** The text a computation adds to [sys.stdout] when run in [w]. *)
Definition emitted {A} (m : M Host A) (w : world Host) : string :=
  drop_chars (String.length (stdout_text w)) (stdout_text (snd (m w))).

End Callbacks.

Definition is_register (c : call) : bool :=
  match c with
  | Register => true
  | Unregister => false
  end.

(** [registered_before cs]: the history [cs] has a call of [register]. *)
Definition registered_before (cs : list call) : bool := existsb is_register cs.

(** Worlds right after module load, with an empty host frame, in which
    [sys.stdout] is an open stream, a closed stream, a stream on a
    broken pipe, [None], and missing. *)
Definition open_world : world unit := module_load (open_stream "") tt.

Definition closed_world : world unit := module_load (closed_stream "") tt.

Definition broken_pipe_world : world unit :=
  module_load (failing_stream "" (PyExn "BrokenPipeError" "[Errno 32] Broken pipe")) tt.

Definition none_world : world unit := module_load StdoutNone tt.

Definition missing_world : world unit := module_load StdoutMissing tt.

(** * Properties *)

(** ** Strings and streams *)

Lemma string_app_cons (x : ascii) (a b : string) :
  String x a +:+ b = String x (a +:+ b).
Proof. reflexivity. Qed.

Lemma string_app_nil_r (s : string) : s +:+ "" = s.
Proof.
  induction s as [|c s IH]; [reflexivity |].
  now rewrite string_app_cons, IH.
Qed.

Lemma string_app_assoc (a b c : string) : (a +:+ b) +:+ c = a +:+ (b +:+ c).
Proof.
  induction a as [|x a IH]; [reflexivity |].
  now rewrite !string_app_cons, IH.
Qed.

Lemma drop_chars_app (a b : string) : drop_chars (String.length a) (a +:+ b) = b.
Proof.
  induction a as [|x a IH]; [reflexivity |].
  rewrite string_app_cons. exact IH.
Qed.

Example lines_two : lines ("ab" +:+ newline +:+ "cd") = ["ab"; "cd"].
Proof. reflexivity. Qed.

Lemma lines_marker (c : call) (rest : string) :
  lines (marker c +:+ newline +:+ rest) = marker c :: lines rest.
Proof. destruct c; reflexivity. Qed.

Lemma lines_transcript (cs : list call) : lines (transcript cs) = map marker cs.
Proof.
  induction cs as [|c cs IH]; simpl; [reflexivity |].
  now rewrite lines_marker, IH.
Qed.

Lemma is_version_triple_spec (v : pyval) :
  is_version_triple v = true <->
  exists a b c : Z,
    v = PyTuple [PyInt a; PyInt b; PyInt c] /\ 0 <= a /\ 0 <= b /\ 0 <= c.
Proof.
  split.
  - destruct v as [| | |items]; try discriminate.
    destruct items as [|a [|b [|c [|d rest]]]]; try discriminate.
    destruct a as [|a| |], b as [|b| |], c as [|c| |]; simpl;
      rewrite ?andb_false_r; try discriminate.
    rewrite !andb_true_iff. intros [[Ha Hb] Hc].
    exists a, b, c. split; [reflexivity | lia].
  - intros (a & b & c & -> & Ha & Hb & Hc). simpl.
    rewrite !andb_true_iff. lia.
Qed.

Lemma drop_chars_all (a : string) : drop_chars (String.length a) a = "".
Proof.
  rewrite <- (string_app_nil_r a) at 2. apply drop_chars_app.
Qed.

(** ** The world after a call *)

Section CallbackFacts.

Context {Host : Type}.
Implicit Types (w : world Host) (c : call) (cs : list call).

Lemma write_stdout_nil w : write_stdout "" w = w.
Proof.
  destruct w as [[| |[wr cl ft]] d h]; unfold write_stdout;
    cbn [sys_stdout descriptor host binding_append]; try reflexivity.
  unfold stream_append; cbn [written closed fault].
  now rewrite string_app_nil_r.
Qed.

Lemma write_stdout_app (a b : string) w :
  write_stdout b (write_stdout a w) = write_stdout (a +:+ b) w.
Proof.
  destruct w as [[| |[wr cl ft]] d h]; unfold write_stdout;
    cbn [sys_stdout descriptor host binding_append]; try reflexivity.
  unfold stream_append; cbn [written closed fault].
  now rewrite string_app_assoc.
Qed.

(** Writing does not open, close or repair the stream. *)
Lemma writable_write_stdout (text : string) w :
  writable (write_stdout text w) = writable w.
Proof. destruct w as [[| |[wr cl ft]] d h]; reflexivity. Qed.

Lemma stdout_text_write (text : string) w :
  writable w = true -> stdout_text (write_stdout text w) = stdout_text w +:+ text.
Proof. destruct w as [[| |[wr cl ft]] d h]; try discriminate; reflexivity. Qed.

(** On a writable stream [print] returns, having added its argument
    and a line feed. *)
Lemma print_writable (s : string) w :
  writable w = true ->
  print s w = (Returned PyNone, write_stdout (s +:+ newline) w).
Proof.
  destruct w as [[| |[wr [|] [e|]]] d h]; try discriminate. intros _.
  unfold print, bind, file_write, stream_write, ret, write_stdout, stream_append;
    cbn [sys_stdout descriptor host binding_append written closed fault].
  now rewrite string_app_assoc.
Qed.

(** On any other binding [print] leaves the world as it is. *)
Lemma print_not_writable (s : string) w :
  writable w = false -> snd (print s w) = w.
Proof.
  destruct w as [[| |[wr [|] [e|]]] d h]; try discriminate; reflexivity.
Qed.

Lemma invoke_writable c w :
  writable w = true ->
  invoke c w = (Returned PyNone, write_stdout (marker c +:+ newline) w).
Proof.
  intros Hw. destruct c; cbn [invoke marker]; unfold register, unregister, bind;
    now rewrite print_writable.
Qed.

Lemma invoke_not_writable c w : writable w = false -> snd (invoke c w) = w.
Proof.
  intros Hw.
  assert (P : forall s, snd (bind (print s) (fun _ => ret PyNone) w) = w).
  { intros s. unfold bind. pose proof (print_not_writable s w Hw) as E.
    destruct (print s w) as [[v|e] w']; simpl in E; now subst. }
  destruct c; apply P.
Qed.

Lemma host_run_writable cs w :
  writable w = true ->
  host_run cs w = (Returned PyNone, write_stdout (transcript cs) w).
Proof.
  revert w. induction cs as [|c cs IH]; intros w Hw.
  - cbn [host_run transcript]. unfold ret. now rewrite write_stdout_nil.
  - cbn [host_run transcript]. unfold bind. rewrite invoke_writable by exact Hw.
    rewrite IH by now rewrite writable_write_stdout.
    now rewrite write_stdout_app, string_app_assoc.
Qed.

Lemma host_run_not_writable cs w : writable w = false -> snd (host_run cs w) = w.
Proof.
  intros Hw. induction cs as [|c cs IH]; [reflexivity |].
  cbn [host_run]. unfold bind.
  pose proof (invoke_not_writable c w Hw) as E.
  destruct (invoke c w) as [[v|e] w']; simpl in E; subst w'; [exact IH | reflexivity].
Qed.

Lemma emitted_write {A} (m : M Host A) (r : outcome A) (text : string) w :
  writable w = true -> m w = (r, write_stdout text w) -> emitted m w = text.
Proof.
  intros Hw E. unfold emitted. rewrite E. cbn [snd].
  rewrite stdout_text_write by exact Hw. apply drop_chars_app.
Qed.

Lemma emitted_unchanged {A} (m : M Host A) w : snd (m w) = w -> emitted m w = "".
Proof. intros E. unfold emitted. rewrite E. apply drop_chars_all. Qed.

(** Whatever [sys.stdout] is bound to, a sequence of calls changes the
    world by the text it adds to the stream and by nothing else. *)
Lemma host_run_frame cs w :
  snd (host_run cs w) = write_stdout (emitted (host_run cs) w) w.
Proof.
  destruct (writable w) eqn:Hw.
  - pose proof (host_run_writable cs w Hw) as E.
    rewrite (emitted_write _ _ _ _ Hw E). now rewrite E.
  - pose proof (host_run_not_writable cs w Hw) as E.
    rewrite (emitted_unchanged _ _ E), write_stdout_nil. exact E.
Qed.

End CallbackFacts.

(** ** The lifecycle callbacks *)

Example activation_cycle :
  stdout_text (snd (host_run [Register; Unregister] open_world)) =
  "NX init!" +:+ newline +:+ "NX uninit!" +:+ newline.
Proof. reflexivity. Qed.

Example double_registration :
  host_run [Register; Register] open_world =
  (Returned PyNone,
   module_load (open_stream ("NX init!" +:+ newline +:+ "NX init!" +:+ newline)) tt).
Proof. reflexivity. Qed.

Example register_on_broken_pipe :
  register broken_pipe_world =
  (Raised (PyExn "BrokenPipeError" "[Errno 32] Broken pipe"), broken_pipe_world).
Proof. reflexivity. Qed.

Example register_without_stdout :
  register missing_world =
  (Raised (PyExn "RuntimeError" "lost sys.stdout"), missing_world).
Proof. reflexivity. Qed.

(** C1, as stated, fails: with [sys.stdout] closed, [register()] raises
    [ValueError] and writes nothing; with [sys.stdout] bound to [None]
    it returns but emits no line. *)
Lemma register_can_raise_or_stay_silent :
  register closed_world =
    (Raised (PyExn "ValueError" "I/O operation on closed file."), closed_world) /\
  fst (register closed_world) <> Returned PyNone /\
  lines (emitted register closed_world) = [] /\
  register none_world = (Returned PyNone, none_world) /\
  lines (emitted register none_world) = [] /\
  ~ (exists line, lines (emitted register none_world) = [line] /\
                  contains "NX init!" line = true).
Proof.
  repeat split; [discriminate |]. intros (line & H & _). discriminate H.
Qed.

(** C1 (amended): in every world where [sys.stdout] is an open stream
    that accepts writes, [register()] returns [None] without raising;
    the text it adds to the stream is exactly one line, that line
    contains the literal "NX init!", and neither the descriptor, the
    state of the stream nor the host frame changes. *)
Theorem register_emits_init_marker {Host : Type} (w : world Host) :
  writable w = true ->
  fst (register w) = Returned PyNone /\
  (exists line, lines (emitted register w) = [line] /\
                contains "NX init!" line = true) /\
  emitted register w = "NX init!" +:+ newline /\
  snd (register w) = write_stdout (emitted register w) w /\
  descriptor (snd (register w)) = descriptor w /\
  host (snd (register w)) = host w.
Proof.
  intros Hw. pose proof (invoke_writable Register w Hw) as R.
  cbn [invoke marker] in R.
  rewrite (emitted_write _ _ _ _ Hw R), R. repeat split.
  exists "NX init!". split; reflexivity.
Qed.

Lemma register_emits_init_marker_witness :
  writable open_world = true /\
  fst (register open_world) = Returned PyNone /\
  (exists line, lines (emitted register open_world) = [line] /\
                contains "NX init!" line = true) /\
  emitted register open_world = "NX init!" +:+ newline /\
  snd (register open_world) = write_stdout (emitted register open_world) open_world /\
  descriptor (snd (register open_world)) = descriptor open_world /\
  host (snd (register open_world)) = host open_world.
Proof.
  split; [reflexivity |].
  apply (register_emits_init_marker open_world). reflexivity.
Defined.

(** C2, as stated, fails: with [sys.stdout] closed, [unregister()]
    raises [ValueError] and writes nothing; with [sys.stdout] bound to
    [None] it returns but emits no line. *)
Lemma unregister_can_raise_or_stay_silent :
  unregister closed_world =
    (Raised (PyExn "ValueError" "I/O operation on closed file."), closed_world) /\
  fst (unregister closed_world) <> Returned PyNone /\
  lines (emitted unregister closed_world) = [] /\
  unregister none_world = (Returned PyNone, none_world) /\
  lines (emitted unregister none_world) = [] /\
  ~ (exists line, lines (emitted unregister none_world) = [line] /\
                  contains "NX uninit!" line = true).
Proof.
  repeat split; [discriminate |]. intros (line & H & _). discriminate H.
Qed.

(** C2 (amended): in every world where [sys.stdout] is an open stream
    that accepts writes, [unregister()] returns [None] without raising;
    the text it adds to the stream is exactly one line, that line
    contains the literal "NX uninit!", and neither the descriptor, the
    state of the stream nor the host frame changes. *)
Theorem unregister_emits_uninit_marker {Host : Type} (w : world Host) :
  writable w = true ->
  fst (unregister w) = Returned PyNone /\
  (exists line, lines (emitted unregister w) = [line] /\
                contains "NX uninit!" line = true) /\
  emitted unregister w = "NX uninit!" +:+ newline /\
  snd (unregister w) = write_stdout (emitted unregister w) w /\
  descriptor (snd (unregister w)) = descriptor w /\
  host (snd (unregister w)) = host w.
Proof.
  intros Hw. pose proof (invoke_writable Unregister w Hw) as U.
  cbn [invoke marker] in U.
  rewrite (emitted_write _ _ _ _ Hw U), U. repeat split.
  exists "NX uninit!". split; reflexivity.
Qed.

Lemma unregister_emits_uninit_marker_witness :
  writable open_world = true /\
  fst (unregister open_world) = Returned PyNone /\
  (exists line, lines (emitted unregister open_world) = [line] /\
                contains "NX uninit!" line = true) /\
  emitted unregister open_world = "NX uninit!" +:+ newline /\
  snd (unregister open_world) = write_stdout (emitted unregister open_world) open_world /\
  descriptor (snd (unregister open_world)) = descriptor open_world /\
  host (snd (unregister open_world)) = host open_world.
Proof.
  split; [reflexivity |].
  apply (unregister_emits_uninit_marker open_world). reflexivity.
Defined.

(** C3, as stated, fails: with [sys.stdout] closed the opening
    [register()] already raises, and [unregister()] called afterwards
    raises as well; with [sys.stdout] bound to [None] both return but
    no teardown line is emitted. *)
Lemma unregister_after_register_can_fail :
  host_run [Register] closed_world =
    (Raised (PyExn "ValueError" "I/O operation on closed file."), closed_world) /\
  unregister (snd (host_run [Register] closed_world)) =
    (Raised (PyExn "ValueError" "I/O operation on closed file."), closed_world) /\
  host_run [Register] none_world = (Returned PyNone, none_world) /\
  lines (emitted unregister (snd (host_run [Register] none_world))) = [] /\
  ~ (exists w1,
       host_run (Register :: []) closed_world = (Returned PyNone, w1) /\
       unregister w1 = (Returned PyNone, write_stdout ("NX uninit!" +:+ newline) w1) /\
       lines (emitted unregister w1) = ["NX uninit!"]).
Proof.
  repeat split. intros (w1 & H & _). discriminate H.
Qed.

(** C3 (amended): when [sys.stdout] is an open stream that accepts
    writes, then whatever calls follow an opening [register()], the
    sequence runs to a world [w1] without raising, and [unregister()]
    called there returns [None] and adds the teardown marker line to
    the stream. *)
Theorem unregister_after_register {Host : Type}
    (mid : list call) (w : world Host) :
  writable w = true ->
  exists w1,
    host_run (Register :: mid) w = (Returned PyNone, w1) /\
    unregister w1 = (Returned PyNone, write_stdout ("NX uninit!" +:+ newline) w1) /\
    lines (emitted unregister w1) = ["NX uninit!"].
Proof.
  intros Hw. eexists. split; [now apply host_run_writable |].
  assert (Hw1 : writable (write_stdout (transcript (Register :: mid)) w) = true)
    by now rewrite writable_write_stdout.
  pose proof (invoke_writable Unregister _ Hw1) as U. cbn [invoke marker] in U.
  split; [exact U |].
  now rewrite (emitted_write _ _ _ _ Hw1 U).
Qed.

Lemma unregister_after_register_witness :
  writable open_world = true /\
  exists w1,
    host_run (Register :: [Register; Unregister]) open_world = (Returned PyNone, w1) /\
    unregister w1 = (Returned PyNone, write_stdout ("NX uninit!" +:+ newline) w1) /\
    lines (emitted unregister w1) = ["NX uninit!"].
Proof.
  split; [reflexivity |].
  apply (unregister_after_register [Register; Unregister] open_world). reflexivity.
Defined.

(** C7, as stated, fails: right after module load, with no call of
    [register()] before, [unregister()] raises when [sys.stdout] is
    closed and emits no line when [sys.stdout] is [None]. *)
Lemma unregister_first_can_fail :
  registered_before [] = false /\
  host_run [] closed_world = (Returned PyNone, closed_world) /\
  unregister closed_world =
    (Raised (PyExn "ValueError" "I/O operation on closed file."), closed_world) /\
  unregister none_world = (Returned PyNone, none_world) /\
  lines (emitted unregister none_world) = [] /\
  ~ (exists w1,
       host_run [] closed_world = (Returned PyNone, w1) /\
       unregister w1 = (Returned PyNone, write_stdout ("NX uninit!" +:+ newline) w1) /\
       lines (emitted unregister w1) = ["NX uninit!"]).
Proof.
  repeat split. intros (w1 & H & U & _).
  injection H as <-. discriminate U.
Qed.

(** C7 (amended): when [sys.stdout] is an open stream that accepts
    writes and the history since module load has no call of
    [register()], [unregister()] is not guarded: the history runs to a
    world [w1] without raising, and [unregister()] called there returns
    [None] and adds the teardown marker line to the stream. *)
Theorem unregister_without_register {Host : Type}
    (pre : list call) (out : stdout_binding) (h : Host) :
  binding_writable out = true ->
  registered_before pre = false ->
  exists w1,
    host_run pre (module_load out h) = (Returned PyNone, w1) /\
    unregister w1 = (Returned PyNone, write_stdout ("NX uninit!" +:+ newline) w1) /\
    lines (emitted unregister w1) = ["NX uninit!"].
Proof.
  intros Hw _.
  assert (Hw0 : writable (module_load out h) = true) by exact Hw.
  eexists. split; [now apply host_run_writable |].
  assert (Hw1 : writable (write_stdout (transcript pre) (module_load out h)) = true)
    by now rewrite writable_write_stdout.
  pose proof (invoke_writable Unregister _ Hw1) as U. cbn [invoke marker] in U.
  split; [exact U |].
  now rewrite (emitted_write _ _ _ _ Hw1 U).
Qed.

Lemma unregister_without_register_witness :
  binding_writable (open_stream "") = true /\
  registered_before [Unregister] = false /\
  exists w1 : world unit,
    host_run [Unregister] (module_load (open_stream "") tt) = (Returned PyNone, w1) /\
    unregister w1 = (Returned PyNone, write_stdout ("NX uninit!" +:+ newline) w1) /\
    lines (emitted unregister w1) = ["NX uninit!"].
Proof.
  split; [reflexivity |]. split; [reflexivity |].
  apply (unregister_without_register [Unregister] (open_stream "") tt); reflexivity.
Defined.

(** C8, as stated, fails: with [sys.stdout] closed a sequence ends at
    its first call with [ValueError], the later calls are not made and
    nothing is emitted; with [sys.stdout] bound to [None] the sequence
    completes but no call emits its marker. *)
Lemma host_run_can_raise_or_stay_silent :
  host_run [Register; Unregister] closed_world =
    (Raised (PyExn "ValueError" "I/O operation on closed file."), closed_world) /\
  lines (emitted (host_run [Register; Unregister]) closed_world) = [] /\
  host_run [Register; Unregister] none_world = (Returned PyNone, none_world) /\
  lines (emitted (host_run [Register; Unregister]) none_world) <>
    map marker [Register; Unregister] /\
  host_run [Register; Unregister] closed_world <>
    (Returned PyNone, write_stdout (transcript [Register; Unregister]) closed_world).
Proof. repeat split; discriminate. Qed.

(** C8 (amended): when [sys.stdout] is an open stream that accepts
    writes, every finite sequence of [register()] and [unregister()]
    calls, in any order and with repetitions, runs to completion and
    returns without raising; the lines it adds to the stream are the
    markers of its calls, one per call and in call order, so the line
    of a call does not depend on the calls before it. *)
Theorem host_run_any_sequence {Host : Type} (cs : list call) (w : world Host) :
  writable w = true ->
  host_run cs w = (Returned PyNone, write_stdout (transcript cs) w) /\
  lines (emitted (host_run cs) w) = map marker cs /\
  (forall c, invoke c (snd (host_run cs w)) =
             (Returned PyNone,
              write_stdout (marker c +:+ newline) (snd (host_run cs w)))).
Proof.
  intros Hw. pose proof (host_run_writable cs w Hw) as E.
  split; [exact E |]. split.
  - rewrite (emitted_write _ _ _ _ Hw E). apply lines_transcript.
  - intros c. apply invoke_writable. rewrite E. cbn [snd].
    now rewrite writable_write_stdout.
Qed.

Lemma host_run_any_sequence_witness :
  writable open_world = true /\
  host_run [Unregister; Register; Register] open_world =
    (Returned PyNone,
     write_stdout (transcript [Unregister; Register; Register]) open_world) /\
  lines (emitted (host_run [Unregister; Register; Register]) open_world) =
    map marker [Unregister; Register; Register] /\
  (forall c, invoke c (snd (host_run [Unregister; Register; Register] open_world)) =
             (Returned PyNone,
              write_stdout (marker c +:+ newline)
                (snd (host_run [Unregister; Register; Register] open_world)))).
Proof.
  split; [reflexivity |].
  apply (host_run_any_sequence [Unregister; Register; Register] open_world).
  reflexivity.
Defined.






(** ** The descriptor *)

(** C4: after module load and any sequence of [register()] and
    [unregister()] calls, whatever [sys.stdout] is bound to and whether
    or not a call raises, the descriptor is the dict built at load time,
    so every field has its load-time value; the host frame is untouched
    and the final world differs from the loaded one only by the text
    added to the stream. *)
Theorem descriptor_never_mutated {Host : Type}
    (cs : list call) (out : stdout_binding) (h : Host) :
  let w0 := module_load out h in
  let w1 := snd (host_run cs w0) in
  descriptor w1 = bl_info /\
  (forall key, descriptor w1 !! key = descriptor w0 !! key) /\
  host w1 = h /\
  w1 = write_stdout (emitted (host_run cs) w0) w0.
Proof.
  intros w0 w1. subst w1.
  rewrite (host_run_frame cs w0). repeat split.
Qed.

(** C5: [bl_info["version"]] is the tuple (0, 0, 1) and
    [bl_info["blender"]] is the tuple (4, 2, 0): each has exactly three
    items, all of them integers that are not negative. *)
Theorem version_fields_are_triples :
  (exists a b c : Z,
     bl_info !! "version" = Some (PyTuple [PyInt a; PyInt b; PyInt c]) /\
     0 <= a /\ 0 <= b /\ 0 <= c) /\
  (exists a b c : Z,
     bl_info !! "blender" = Some (PyTuple [PyInt a; PyInt b; PyInt c]) /\
     0 <= a /\ 0 <= b /\ 0 <= c) /\
  is_version_triple <$> bl_info !! "version" = Some true /\
  is_version_triple <$> bl_info !! "blender" = Some true.
Proof.
  split; [| split].
  - exists 0, 0, 1. split; [vm_compute; reflexivity | lia].
  - exists 4, 2, 0. split; [vm_compute; reflexivity | lia].
  - split; vm_compute; reflexivity.
Qed.

(** C6: [bl_info["category"]] and [bl_info["location"]] are both the
    string "Global". *)
Theorem category_and_location_global :
  bl_info !! "category" = Some (PyStr "Global") /\
  bl_info !! "location" = Some (PyStr "Global").
Proof. split; vm_compute; reflexivity. Qed.

(** C10: [bl_info["warning"]] and [bl_info["doc_url"]] are both the
    empty string. *)
Theorem warning_and_doc_url_empty :
  bl_info !! "warning" = Some (PyStr "") /\
  bl_info !! "doc_url" = Some (PyStr "").
Proof. split; vm_compute; reflexivity. Qed.

(** * Further properties *)

(** ** Dict displays *)

Lemma py_dict_snoc (items : list (string * pyval)) (k : string) (v : pyval) :
  py_dict (items ++ [(k, v)]) = <[k := v]> (py_dict items).
Proof. unfold py_dict. now rewrite foldl_app. Qed.

(** Built left to right, the dict is the map of the reversed pair list,
    whose head is the pair stored last. *)
Lemma py_dict_list_to_map (items : list (string * pyval)) :
  py_dict items = list_to_map (reverse items).
Proof.
  induction items as [|[k v] items IH] using rev_ind; [reflexivity |].
  now rewrite py_dict_snoc, reverse_snoc, list_to_map_cons, IH.
Qed.

(** With pairwise distinct keys no pair of the display is overwritten. *)
Lemma py_dict_lookup (items : list (string * pyval)) (k : string) (v : pyval) :
  NoDup (items.*1) ->
  py_dict items !! k = Some v <-> (k, v) ∈ items.
Proof.
  intros Hnd. rewrite py_dict_list_to_map, <- elem_of_list_to_map.
  - apply elem_of_reverse.
  - now rewrite fmap_reverse, reverse_Permutation.
Qed.

Lemma py_dict_lookup_None (items : list (string * pyval)) (k : string) :
  py_dict items !! k = None <-> k ∉ items.*1.
Proof.
  rewrite py_dict_list_to_map, <- not_elem_of_list_to_map.
  now rewrite fmap_reverse, elem_of_reverse.
Qed.

Lemma bl_info_keys_distinct : NoDup (bl_info_items.*1).
Proof. apply (bool_decide_unpack _). vm_compute. reflexivity. Qed.

(** ** Call sequences and the stream *)

Lemma marker_inj (c1 c2 : call) : marker c1 = marker c2 -> c1 = c2.
Proof. destruct c1, c2; simpl; intros H; first [reflexivity | discriminate H]. Qed.

Lemma map_marker_inj (cs1 cs2 : list call) :
  map marker cs1 = map marker cs2 -> cs1 = cs2.
Proof.
  revert cs2. induction cs1 as [|c1 cs1 IH]; intros [|c2 cs2] H;
    simpl in H; try discriminate H; [reflexivity |].
  injection H as Hm Hrest. f_equal; [now apply marker_inj | now apply IH].
Qed.

(** X1: when [sys.stdout] is an open stream that accepts writes in both
    worlds, two call sequences add the same text to the stream exactly
    when they are the same sequence, whatever text the streams already
    hold: the two markers differ, so the text written identifies which
    callbacks ran and in which order. *)
Theorem emitted_identifies_calls {H1 H2 : Type}
    (cs1 cs2 : list call) (w1 : world H1) (w2 : world H2) :
  writable w1 = true ->
  writable w2 = true ->
  emitted (host_run cs1) w1 = emitted (host_run cs2) w2 <-> cs1 = cs2.
Proof.
  intros Hw1 Hw2.
  rewrite (emitted_write _ _ _ _ Hw1 (host_run_writable cs1 w1 Hw1)).
  rewrite (emitted_write _ _ _ _ Hw2 (host_run_writable cs2 w2 Hw2)).
  split; [| now intros ->].
  intros E. apply map_marker_inj.
  now rewrite <- !lines_transcript, E.
Qed.

Lemma emitted_identifies_calls_witness :
  writable open_world = true /\
  writable (module_load (open_stream "earlier output") 7%nat) = true /\
  (emitted (host_run [Register; Unregister]) open_world =
     emitted (host_run [Unregister; Register])
       (module_load (open_stream "earlier output") 7%nat) <->
   [Register; Unregister] = [Unregister; Register]).
Proof.
  split; [reflexivity |]. split; [reflexivity |].
  apply (emitted_identifies_calls [Register; Unregister] [Unregister; Register]
           open_world (module_load (open_stream "earlier output") 7%nat));
    reflexivity.
Defined.

(** ** The descriptor as written *)

(** X3: no key is written twice in the display of [bl_info], so the
    dict holds exactly the ten pairs written: a key is bound to a value
    exactly when that pair is listed, and a key that is not listed is
    absent. *)
Theorem bl_info_matches_display (k : string) (v : pyval) :
  (bl_info !! k = Some v <-> (k, v) ∈ bl_info_items) /\
  (bl_info !! k = None <-> k ∉ bl_info_items.*1) /\
  size bl_info = 10%nat /\
  length bl_info_items = 10%nat.
Proof.
  split; [apply py_dict_lookup, bl_info_keys_distinct |].
  split; [apply py_dict_lookup_None |].
  split; [| reflexivity].
  unfold bl_info. rewrite py_dict_list_to_map, map_size_list_to_map.
  - reflexivity.
  - rewrite fmap_reverse, reverse_Permutation. apply bl_info_keys_distinct.
Qed.

(** X4: every value of [bl_info] is a string, except those of "version"
    and "blender", which are well-formed version triples; no field holds
    [None] or a bare integer. *)
Theorem bl_info_field_types (k : string) (v : pyval) :
  bl_info !! k = Some v ->
  match v with
  | PyStr _ => k <> "version" /\ k <> "blender"
  | PyTuple _ => is_version_triple v = true /\ (k = "version" \/ k = "blender")
  | PyNone | PyInt _ => False
  end.
Proof.
  intros H. apply py_dict_lookup in H; [| apply bl_info_keys_distinct].
  unfold bl_info_items in H.
  repeat (apply elem_of_cons in H as [H | H];
          [injection H as -> ->; simpl; split; first [discriminate | reflexivity | tauto] |]).
  now apply elem_of_nil in H.
Qed.

Lemma bl_info_field_types_witness :
  bl_info !! "blender" = Some (PyTuple [PyInt 4; PyInt 2; PyInt 0]) /\
  is_version_triple (PyTuple [PyInt 4; PyInt 2; PyInt 0]) = true /\
  ("blender" = "version" \/ "blender" = "blender").
Proof.
  split; [vm_compute; reflexivity |].
  apply (bl_info_field_types "blender" (PyTuple [PyInt 4; PyInt 2; PyInt 0])).
  vm_compute. reflexivity.
Defined.
